(** * chemberta/utils/raw_text_dataset.py: lazy dataset adapters

    A shallow embedding of [get_data_files], [RawTextDataset] and
    [RegressionDataset], with the properties of their specification.

    Python values are an inductive type, exceptions are a sum type, and the
    methods run in a small state-and-exception monad whose state is [self]
    (for the methods) or the standard output (for the constructors).  The
    file system, the [nlp] loader and the builtin [str] are Section
    variables; the tokenizer is the callable that the constructors receive,
    and what a theorem needs of it is a named contract. *)

From Stdlib Require Import ZArith Ascii String List Bool Lia.
From Stdlib Require Import SpecFloat.
From stdpp Require Import base option list strings gmap fin_maps pretty.

Open Scope string_scope.
Open Scope list_scope.
Open Scope Z_scope.

(** ** Python values and exceptions *)

(** The cells a row of a lazily loaded table can hold, as Python objects:
    [None], [bool], [int] (unbounded), [float] (IEEE 754 binary64) and [str]. *)
Inductive PyVal : Type :=
  | PNone
  | PBool (b : bool)
  | PInt (z : Z)
  | PFloat (f : spec_float)
  | PStr (s : string).

Inductive Exception : Type :=
  | ValueError (msg : string)
  | TypeError (msg : string)
  | OverflowError (msg : string)
  | IndexError (msg : string)
  | KeyError (key : string)
  | OtherError (name msg : string).

(** The outcome of evaluating an expression: a value or a raised exception. *)
Inductive Exc (A : Type) : Type :=
  | Ok (a : A)
  | Raise (e : Exception).
Arguments Ok {A} a.
Arguments Raise {A} e.

(** The value, when there is one. *)
Definition fst_ok {A St} (r : Exc A * St) : option A :=
  match r with (Ok a, _) => Some a | (Raise _, _) => None end.

(** ** The state-and-exception monad of the methods

    A computation reads and writes a state [St] and either returns or raises;
    the state written before a raise is kept, as in Python. *)
Definition Py (St A : Type) : Type := St -> Exc A * St.

Definition ret {St A} (a : A) : Py St A := fun s => (Ok a, s).

Definition raise {St A} (e : Exception) : Py St A := fun s => (Raise e, s).

Definition bind {St A B} (m : Py St A) (k : A -> Py St B) : Py St B :=
  fun s =>
    match m s with
    | (Ok a, s') => k a s'
    | (Raise e, s') => (Raise e, s')
    end.

(** Read the state ([self.attr] is [gets attr]). *)
Definition gets {St A} (f : St -> A) : Py St A := fun s => (Ok (f s), s).

(** Replace the state (an assignment to an attribute of [self]). *)
Definition modify {St} (f : St -> St) : Py St unit := fun s => (Ok tt, f s).

(** Evaluate an expression that has no access to the state. *)
Definition lift {St A} (r : Exc A) : Py St A := fun s => (r, s).

Declare Scope py_scope.
Delimit Scope py_scope with py.
Notation "x <- m ;; k" := (bind m (fun x => k))
  (at level 100, m at next level, right associativity) : py_scope.
Notation "m ;;; k" := (bind m (fun _ => k))
  (at level 100, right associativity) : py_scope.

(** Exceptions alone (no state): the monad of pure expressions. *)
Definition ebind {A B} (r : Exc A) (k : A -> Exc B) : Exc B :=
  match r with
  | Ok a => k a
  | Raise e => Raise e
  end.

Declare Scope exc_scope.
Delimit Scope exc_scope with exc.
Notation "x <- m ;; k" := (ebind m (fun x => k))
  (at level 100, m at next level, right associativity) : exc_scope.

(** A list comprehension [[f(x) for x in l]]: left to right, the first
    exception ends it. *)
Fixpoint comprehension {A B} (f : A -> Exc B) (l : list A) : Exc (list B) :=
  match l with
  | [] => Ok []
  | x :: l' =>
      (y <- f x ;;
       ys <- comprehension f l' ;;
       Ok (y :: ys))%exc
  end.

(** ** The [math] module on Python values *)

(** [float(n)] for an [int] rounds to nearest-even and raises [OverflowError]
    when the rounded value exceeds the largest double, that is from
    [2^1024 - 2^970] on. *)
Definition int_fits_float (z : Z) : bool :=
  Z.abs z <? 2 ^ 1024 - 2 ^ 970.

Definition is_number (v : PyVal) : bool :=
  match v with
  | PBool _ | PInt _ | PFloat _ => true
  | PNone | PStr _ => false
  end.

Definition type_name (v : PyVal) : string :=
  match v with
  | PNone => "NoneType"
  | PBool _ => "bool"
  | PInt _ => "int"
  | PFloat _ => "float"
  | PStr _ => "str"
  end.

Definition float_is_nan (f : spec_float) : bool :=
  match f with S754_nan => true | _ => false end.

Definition float_is_inf (f : spec_float) : bool :=
  match f with S754_infinity _ => true | _ => false end.

(** The argument conversion shared by [math.isnan] and [math.isinf]: the
    test [test] is applied to the argument as a double.  An [int] or [bool]
    converts to a finite double, on which both tests are false. *)
Definition on_double (test : spec_float -> bool) (x : PyVal) : Exc bool :=
  match x with
  | PFloat f => Ok (test f)
  | PBool _ => Ok false
  | PInt z =>
      if int_fits_float z then Ok false
      else Raise (OverflowError "int too large to convert to float")
  | PNone | PStr _ =>
      Raise (TypeError ("must be real number, not " +:+ type_name x))
  end.

Definition math_isnan : PyVal -> Exc bool := on_double float_is_nan.
Definition math_isinf : PyVal -> Exc bool := on_double float_is_inf.

(** ** [RegressionDataset._clean_property]

<<
    def _clean_property(self, x):
        if x is None or math.isnan(x) or math.isinf(x):
            return 0
        return x
>>
    [or] is short-circuit: [math.isnan] is not reached for [None]. *)
Definition _clean_property (x : PyVal) : Exc PyVal :=
  match x with
  | PNone => Ok (PInt 0)
  | _ =>
      (nan <- math_isnan x ;;
       if (nan : bool) then Ok (PInt 0)
       else
         inf <- math_isinf x ;;
         if (inf : bool) then Ok (PInt 0) else Ok x)%exc
  end.

(** ** The file system and [get_data_files] *)

Inductive Node : Type :=
  | File
  | Dir (entries : list string).

(** A file system maps a path to what it names; [Dir] carries the entry
    names in the order [os.listdir] enumerates them.  Paths are taken as
    written; permissions and symbolic links are not modelled. *)
Abbreviation FileSystem := (gmap string Node).

Definition os_path_isdir (fs : FileSystem) (p : string) : bool :=
  match fs !! p with Some (Dir _) => true | _ => false end.

Definition os_path_isfile (fs : FileSystem) (p : string) : bool :=
  match fs !! p with Some File => true | _ => false end.

Definition os_listdir (fs : FileSystem) (p : string) : Exc (list string) :=
  match fs !! p with
  | Some (Dir entries) => Ok entries
  | Some File => Raise (OtherError "NotADirectoryError" p)
  | None => Raise (OtherError "FileNotFoundError" p)
  end.

Fixpoint endswith_sep (s : string) : bool :=
  match s with
  | EmptyString => false
  | String c EmptyString => Ascii.eqb c "/"%char
  | String _ t => endswith_sep t
  end.

Definition startswith_sep (s : string) : bool := String.prefix "/" s.

(** [os.path.join(a, b)] of [posixpath], for two arguments. *)
Definition os_path_join (a b : string) : string :=
  if startswith_sep b then b
  else if (String.eqb a "" || endswith_sep a)%bool then a +:+ b
  else a +:+ "/" +:+ b.

(** What [get_data_files] returns: a list of paths, or one bare path. *)
Inductive DataFiles : Type :=
  | PathList (paths : list string)
  | SinglePath (path : string).

(**
<<
def get_data_files(train_path):
    if os.path.isdir(train_path):
        return [
            os.path.join(train_path, file_name) for file_name in os.listdir(train_path)
        ]
    elif os.path.isfile(train_path):
        return train_path

    raise ValueError("Please pass in a proper train path")
>> *)
Definition get_data_files (fs : FileSystem) (train_path : string) : Exc DataFiles :=
  if os_path_isdir fs train_path then
    (names <- os_listdir fs train_path ;;
     Ok (PathList (map (os_path_join train_path) names)))%exc
  else if os_path_isfile fs train_path then
    Ok (SinglePath train_path)
  else Raise (ValueError "Please pass in a proper train path").

(** ** Dictionaries, the lazy dataset and tensors *)

(** [d[k]] on a dictionary: [KeyError] when the key is absent. *)
Definition dict_getitem {A} (d : gmap string A) (k : string) : Exc A :=
  match d !! k with
  | Some v => Ok v
  | None => Raise (KeyError k)
  end.

(** A record of the lazy sequence: column name to cell. *)
Abbreviation Row := (gmap string PyVal).

(** The ["train"] split that [load_dataset] yields: its schema
    ([dataset.features], column names in file order) and its records. *)
Record Dataset : Type := {
  features : list string;
  rows : list Row
}.

Definition dataset_len (d : Dataset) : Z := Z.of_nat (length (rows d)).

(** [dataset[i]] for an integer [i]: a negative index counts from the end,
    and an index outside the records raises [IndexError]. *)
Definition dataset_getitem (d : Dataset) (i : Z) : Exc Row :=
  let n := dataset_len d in
  let k := if i <? 0 then n + i else i in
  if (k <? 0) || (n <=? k) then Raise (IndexError "index out of bounds")
  else
    match rows d !! Z.to_nat k with
    | Some r => Ok r
    | None => Raise (IndexError "index out of bounds")
    end.

(** A numeric array: the numbers it was built from, in order.  The element
    type that [torch] picks and its rounding are outside this model. *)
Record Tensor : Type := { tensor_data : list PyVal }.

Definition tensor_len (t : Tensor) : nat := length (tensor_data t).

(** What a field of the encoding holds while [preprocess] runs: the list the
    tokenizer produced, or an array already built. *)
Inductive PyObj : Type :=
  | OList (l : list PyVal)
  | OTensor (t : Tensor).

(** [torch.tensor(data)]: a new array with the elements of a list, or a copy
    of an array. *)
Definition torch_tensor (data : PyObj) : Tensor :=
  match data with
  | OList l => {| tensor_data := l |}
  | OTensor t => t
  end.

Definition int_list (ids : list Z) : PyObj := OList (PInt <$> ids).

(** ** The tokenizer *)

Inductive Padding : Type :=
  | DoNotPad
  | PadMaxLength.

(** The keyword arguments of a tokenizer call. *)
Record TokOpts : Type := {
  add_special_tokens : bool;
  truncation : bool;
  padding : Padding;
  max_length : Z
}.

(** A tokenizer is a callable from a text and options to an encoding: a
    dictionary from field name (["input_ids"], ["attention_mask"], ...) to a
    sequence of integers.  It may raise, for instance on a text that is not
    a [str]. *)
Definition Tokenizer : Type := PyVal -> TokOpts -> Exc (gmap string (list Z)).

(** The contract of a tokenizer at the options [o] of a call.
    [accepts]: every string is encoded, and the encoding has token ids.
    [truncates]: with truncation on, the token ids are at most [max_length].
    [pads]: with truncation on and padding to the maximum length, every
    field has exactly [max_length] entries. *)
Definition accepts (tok : Tokenizer) (o : TokOpts) : Prop :=
  ∀ s, ∃ enc, tok (PStr s) o = Ok enc ∧ is_Some (enc !! "input_ids").

Definition truncates (tok : Tokenizer) (o : TokOpts) : Prop :=
  truncation o = true →
  ∀ text enc ids, tok text o = Ok enc → enc !! "input_ids" = Some ids →
    Z.of_nat (length ids) ≤ max_length o.

Definition pads (tok : Tokenizer) (o : TokOpts) : Prop :=
  truncation o = true → padding o = PadMaxLength →
  ∀ text enc k ids, tok text o = Ok enc → enc !! k = Some ids →
    Z.of_nat (length ids) = max_length o.

(** [print(s)]: the state is the standard output, a list of lines. *)
Definition print (s : string) : Py (list string) unit :=
  modify (fun out => out ++ [s]).

(** ** [RawTextDataset] *)

Module RawTextDataset.

Record t : Type := {
  tokenizer : Tokenizer;
  file_path : string;
  block_size : Z;
  dataset : Dataset;
  len : Z
}.

Section Methods.

(** The file system at construction, [nlp.load_dataset] (with the
    ["train"] split taken) and the builtin [str] on a record. *)
Variable fs : FileSystem.
Variable load_dataset : string -> DataFiles -> Exc Dataset.
Variable str : Row -> string.

(**
<<
  def __init__(self, tokenizer, file_path: str, block_size: int):
      self.tokenizer = tokenizer
      self.file_path = file_path
      self.block_size = block_size

      data_files = get_data_files(file_path)
      self.dataset = load_dataset("text", data_files=data_files)["train"]
      print("Loaded Dataset")
      self.len = len(self.dataset)
      print("Number of lines: " + str(self.len))
      print("Block size: " + str(self.block_size))
>>
    The object exists for the caller only when [__init__] returns, so the
    attributes are gathered into the record at the end. *)
Definition __init__ (tokenizer : Tokenizer) (file_path : string) (block_size : Z)
  : Py (list string) t :=
  (data_files <- lift (get_data_files fs file_path) ;;
   dataset <- lift (load_dataset "text" data_files) ;;
   print "Loaded Dataset" ;;;
   let len := dataset_len dataset in
   print ("Number of lines: " +:+ pretty len) ;;;
   print ("Block size: " +:+ pretty block_size) ;;;
   ret {| tokenizer := tokenizer; file_path := file_path;
          block_size := block_size; dataset := dataset; len := len |})%py.

Definition __len__ : Py t Z := gets len.

(** The keyword arguments of the call in [preprocess]: no [padding]
    argument, so the tokenizer does not pad. *)
Definition options (block_size : Z) : TokOpts :=
  {| add_special_tokens := true; truncation := true;
     padding := DoNotPad; max_length := block_size |}.

(**
<<
  def preprocess(self, text):
      batch_encoding = self.tokenizer(
          str(text),
          add_special_tokens=True,
          truncation=True,
          max_length=self.block_size,
      )
      return torch.tensor(batch_encoding["input_ids"])
>> *)
Definition preprocess (text : Row) : Py t Tensor :=
  (tok <- gets tokenizer ;;
   bs <- gets block_size ;;
   batch_encoding <- lift (tok (PStr (str text)) (options bs)) ;;
   input_ids <- lift (dict_getitem batch_encoding "input_ids") ;;
   ret (torch_tensor (int_list input_ids)))%py.

(**
<<
  def __getitem__(self, i):
      line = self.dataset[i]
      example = self.preprocess(line)
      return example
>> *)
Definition __getitem__ (i : Z) : Py t Tensor :=
  (ds <- gets dataset ;;
   line <- lift (dataset_getitem ds i) ;;
   example <- preprocess line ;;
   ret example)%py.

End Methods.

End RawTextDataset.

(** ** [RegressionDataset] *)

Module RegressionDataset.

Record t : Type := {
  tokenizer : Tokenizer;
  file_path : string;
  block_size : Z;
  dataset : Dataset;
  smiles_column : string;
  label_columns : list string;
  num_labels : Z;
  len : Z
}.

Section Methods.

Variable fs : FileSystem.
Variable load_dataset : string -> DataFiles -> Exc Dataset.

(** [l[0]] on a list. *)
Definition first {A} (l : list A) : Exc A :=
  match l with
  | x :: _ => Ok x
  | [] => Raise (IndexError "list index out of range")
  end.

(**
<<
  def __init__(self, tokenizer, file_path: str, block_size: int):
      print("init dataset")
      self.tokenizer = tokenizer
      self.file_path = file_path
      self.block_size = block_size

      data_files = get_data_files(file_path)
      self.dataset = load_dataset("csv", data_files=data_files)["train"]
      dataset_columns = list(self.dataset.features.keys())
      self.smiles_column = dataset_columns[0]
      self.label_columns = dataset_columns[1:]
      self.num_labels = len(self.label_columns)

      print("Loaded Dataset")
      self.len = len(self.dataset)
      print("Number of lines: " + str(self.len))
      print("Block size: " + str(self.block_size))
>> *)
Definition __init__ (tokenizer : Tokenizer) (file_path : string) (block_size : Z)
  : Py (list string) t :=
  (print "init dataset" ;;;
   data_files <- lift (get_data_files fs file_path) ;;
   dataset <- lift (load_dataset "csv" data_files) ;;
   let dataset_columns := features dataset in
   smiles_column <- lift (first dataset_columns) ;;
   let label_columns := drop 1 dataset_columns in
   let num_labels := Z.of_nat (length label_columns) in
   print "Loaded Dataset" ;;;
   let len := dataset_len dataset in
   print ("Number of lines: " +:+ pretty len) ;;;
   print ("Block size: " +:+ pretty block_size) ;;;
   ret {| tokenizer := tokenizer; file_path := file_path;
          block_size := block_size; dataset := dataset;
          smiles_column := smiles_column; label_columns := label_columns;
          num_labels := num_labels; len := len |})%py.

Definition __len__ : Py t Z := gets len.

(** The keyword arguments of the call in [preprocess]. *)
Definition options (block_size : Z) : TokOpts :=
  {| add_special_tokens := true; truncation := true;
     padding := PadMaxLength; max_length := block_size |}.

(** [self._clean_property(line[label_column])] *)
Definition clean_cell (line : Row) (label_column : string) : Exc PyVal :=
  (v <- dict_getitem line label_column ;; _clean_property v)%exc.

(**
<<
  def preprocess(self, line):
      batch_encoding = self.tokenizer(
          line[self.smiles_column],
          add_special_tokens=True,
          truncation=True,
          padding="max_length",
          max_length=self.block_size,
      )
      batch_encoding["label"] = torch.tensor(
          [
              self._clean_property(line[label_column])
              for label_column in self.label_columns
          ]
      )
      batch_encoding = {k: torch.tensor(v) for k, v in batch_encoding.items()}

      return batch_encoding
>> *)
Definition preprocess (line : Row) : Py t (gmap string Tensor) :=
  (tok <- gets tokenizer ;;
   col <- gets smiles_column ;;
   text <- lift (dict_getitem line col) ;;
   bs <- gets block_size ;;
   batch_encoding <- lift (tok text (options bs)) ;;
   cols <- gets label_columns ;;
   labels <- lift (comprehension (clean_cell line) cols) ;;
   let batch_encoding :=
     <["label" := OTensor (torch_tensor (OList labels))]>
       (int_list <$> batch_encoding) in
   ret (torch_tensor <$> batch_encoding))%py.

(**
<<
  def __getitem__(self, i):
      line = self.dataset[i]
      example = self.preprocess(line)
      return example
>> *)
Definition __getitem__ (i : Z) : Py t (gmap string Tensor) :=
  (ds <- gets dataset ;;
   line <- lift (dataset_getitem ds i) ;;
   example <- preprocess line ;;
   ret example)%py.

End Methods.

End RegressionDataset.

(** ** Concrete collaborators and inputs, used to run the definitions *)

(** Doubles: 1.0, 2.0, 3.0 and 3.5 in canonical binary64 form. *)
Definition float_1_0 : spec_float := S754_finite false 4503599627370496 (-52).
Definition float_2_0 : spec_float := S754_finite false 4503599627370496 (-51).
Definition float_3_0 : spec_float := S754_finite false 6755399441055744 (-51).
Definition float_3_5 : spec_float := S754_finite false 7881299347898368 (-51).

(** A character-level tokenizer in the style of the RoBERTa tokenizers:
    [<s>] is 0, [<pad>] is 1, [</s>] is 2 and a character is its code plus 3.
    Truncation keeps room for the two special tokens. *)
Definition char_ids (s : string) : list Z :=
  (fun c => Z.of_nat (nat_of_ascii c) + 3) <$> list_ascii_of_string s.

Definition char_tokenizer : Tokenizer := fun text o =>
  match text with
  | PStr s =>
      let specials := if add_special_tokens o then 2 else 0 in
      let body := char_ids s in
      let body :=
        if truncation o then take (Z.to_nat (max_length o - specials)) body
        else body in
      let ids := if add_special_tokens o then 0 :: body ++ [2] else body in
      let n := length ids in
      let fill :=
        match padding o with
        | PadMaxLength => (Z.to_nat (max_length o) - n)%nat
        | DoNotPad => 0%nat
        end in
      Ok (<["input_ids" := ids ++ replicate fill 1]>
            {["attention_mask" := replicate n 1 ++ replicate fill 0]})
  | _ => Raise (ValueError "text input must of type `str`")
  end.

(** A directory [data] with two files and a subdirectory, and one file
    outside it. *)
Definition demo_fs : FileSystem :=
  <["data" := Dir ["a.txt"; "b.txt"; "old"]]>
  (<["data/a.txt" := File]>
  (<["data/b.txt" := File]>
  (<["data/old" := Dir []]>
  {["corpus.txt" := File]}))).

(** The three-line text corpus and the two-row table of the specification's
    end-to-end examples, as the loader presents them. *)
Definition text_corpus : Dataset :=
  {| features := ["text"];
     rows := [ {["text" := PStr "hello"]};
               {["text" := PStr "world"]};
               {["text" := PStr "foo bar baz"]} ] |}.

Definition label_row_a : Row :=
  <["text" := PStr "a"]> (<["y1" := PFloat float_1_0]> {["y2" := PFloat S754_nan]}).

Definition label_row_b : Row :=
  <["text" := PStr "b"]> (<["y1" := PFloat float_2_0]> {["y2" := PFloat float_3_0]}).

Definition label_table : Dataset :=
  {| features := ["text"; "y1"; "y2"]; rows := [label_row_a; label_row_b] |}.

(** The same table with a word in a label cell of the second row. *)
Definition broken_row_b : Row :=
  <["text" := PStr "b"]> (<["y1" := PStr "n/a"]> {["y2" := PFloat float_3_0]}).

Definition broken_table : Dataset :=
  {| features := ["text"; "y1"; "y2"]; rows := [label_row_a; broken_row_b] |}.

(** A loader that finds the text corpus behind every text source and the
    table behind every csv source. *)
Definition demo_loader (ds : Dataset) : string -> DataFiles -> Exc Dataset :=
  fun _ _ => Ok ds.

(** [str] of a one-column text record whose line needs no escaping. *)
Definition demo_str (r : Row) : string :=
  match r !! "text" with
  | Some (PStr s) => "{'text': '" +:+ s +:+ "'}"
  | _ => "{}"
  end.

(** A number that [float] accepts: every [bool] and [float], and an [int]
    below the overflow bound. *)
Definition converts_to_float (v : PyVal) : bool :=
  match v with
  | PBool _ | PFloat _ => true
  | PInt z => int_fits_float z
  | PNone | PStr _ => false
  end.

(** A float that is NaN or an infinity. *)
Definition is_nan_or_inf (v : PyVal) : bool :=
  match v with
  | PFloat f => float_is_nan f || float_is_inf f
  | _ => false
  end.

(** A label cell that [_clean_property] takes: missing, or a number that
    converts to a double. *)
Definition cleanable (v : PyVal) : bool :=
  match v with
  | PNone => true
  | _ => converts_to_float v
  end.

(** What [_clean_property] returns on such a cell. *)
Definition cleaned (v : PyVal) : PyVal :=
  match v with
  | PNone => PInt 0
  | _ => if is_nan_or_inf v then PInt 0 else v
  end.

(** The adapters that the constructors build over these inputs with the
    character tokenizer and a block size of 8. *)
Definition demo_text_adapter : RawTextDataset.t :=
  {| RawTextDataset.tokenizer := char_tokenizer;
     RawTextDataset.file_path := "corpus.txt";
     RawTextDataset.block_size := 8;
     RawTextDataset.dataset := text_corpus;
     RawTextDataset.len := 3 |}.

Definition demo_label_adapter (table : Dataset) : RegressionDataset.t :=
  {| RegressionDataset.tokenizer := char_tokenizer;
     RegressionDataset.file_path := "corpus.txt";
     RegressionDataset.block_size := 8;
     RegressionDataset.dataset := table;
     RegressionDataset.smiles_column := "text";
     RegressionDataset.label_columns := ["y1"; "y2"];
     RegressionDataset.num_labels := 2;
     RegressionDataset.len := 2 |}.

(** The label that [preprocess] stores for a column of a row whose label
    cells are all [cleanable]. *)
Definition label_of (line : Row) (label_column : string) : PyVal :=
  match line !! label_column with
  | Some v => cleaned v
  | None => PInt 0
  end.

(** The row has a cell for every label column of the adapter, and each is
    missing or a number that converts to a double. *)
Definition labels_cleanable (self : RegressionDataset.t) (line : Row) : Prop :=
  ∀ c, c ∈ RegressionDataset.label_columns self →
       ∃ v, line !! c = Some v ∧ cleanable v = true.

(** Further inputs: a tokenizer whose encoding has no token ids, one that
    always raises, a table without columns, a table with the text column
    only, and a table whose second row has no cell for [y2]. *)
Definition mask_only_tokenizer : Tokenizer := fun _ _ =>
  Ok {["attention_mask" := [1; 1]]}.

Definition failing_tokenizer : Tokenizer := fun _ _ =>
  Raise (OtherError "RuntimeError" "tokenizer failed").


Definition text_only_table : Dataset :=
  {| features := ["text"]; rows := [ {["text" := PStr "a"]} ] |}.

Definition short_row_b : Row :=
  <["text" := PStr "b"]> {["y1" := PFloat float_2_0]}.

Definition short_table : Dataset :=
  {| features := ["text"; "y1"; "y2"]; rows := [label_row_a; short_row_b] |}.

Definition text_only_adapter : RegressionDataset.t :=
  {| RegressionDataset.tokenizer := char_tokenizer;
     RegressionDataset.file_path := "corpus.txt";
     RegressionDataset.block_size := 8;
     RegressionDataset.dataset := text_only_table;
     RegressionDataset.smiles_column := "text";
     RegressionDataset.label_columns := [];
     RegressionDataset.num_labels := 0;
     RegressionDataset.len := 1 |}.

Definition failing_label_adapter : RegressionDataset.t :=
  {| RegressionDataset.tokenizer := failing_tokenizer;
     RegressionDataset.file_path := "corpus.txt";
     RegressionDataset.block_size := 8;
     RegressionDataset.dataset := broken_table;
     RegressionDataset.smiles_column := "text";
     RegressionDataset.label_columns := ["y1"; "y2"];
     RegressionDataset.num_labels := 2;
     RegressionDataset.len := 2 |}.

Definition mask_only_text_adapter : RawTextDataset.t :=
  {| RawTextDataset.tokenizer := mask_only_tokenizer;
     RawTextDataset.file_path := "corpus.txt";
     RawTextDataset.block_size := 8;
     RawTextDataset.dataset := text_corpus;
     RawTextDataset.len := 3 |}.

(** A label that can be stored: a number that is neither NaN nor infinite. *)
Definition finite_number (v : PyVal) : bool :=
  is_number v && negb (is_nan_or_inf v).

(** * Properties *)

(** ** The file resolver *)

Section Resolver.

Variable fs : FileSystem.

Lemma isdir_listdir d :
  os_path_isdir fs d = true → ∃ names, fs !! d = Some (Dir names).
Proof.
  unfold os_path_isdir. destruct (fs !! d) as [[|names]|]; try discriminate.
  eauto.
Qed.

Lemma isfile_not_isdir p :
  os_path_isfile fs p = true → os_path_isdir fs p = false.
Proof.
  unfold os_path_isfile, os_path_isdir.
  by destruct (fs !! p) as [[|names]|].
Qed.

(** The paths of a directory are its listing, entry by entry. *)
Lemma get_data_files_dir d names :
  fs !! d = Some (Dir names) →
  os_listdir fs d = Ok names ∧
  get_data_files fs d = Ok (PathList (os_path_join d <$> names)).
Proof.
  intros Hd. unfold get_data_files, os_path_isdir, os_listdir.
  rewrite Hd. by split.
Qed.

Lemma get_data_files_invalid p :
  os_path_isdir fs p = false → os_path_isfile fs p = false →
  get_data_files fs p = Raise (ValueError "Please pass in a proper train path").
Proof. intros Hd Hf. unfold get_data_files. by rewrite Hd, Hf. Qed.

End Resolver.

(** Joining a directory path that neither is empty nor ends in a separator
    with an entry name puts one separator between them. *)
Lemma os_path_join_plain d name :
  d ≠ "" → endswith_sep d = false → startswith_sep name = false →
  os_path_join d name = d +:+ "/" +:+ name.
Proof.
  intros Hne Hend Hstart. unfold os_path_join. rewrite Hstart, Hend.
  destruct (String.eqb_spec d ""); [done|]. reflexivity.
Qed.

(** C5. For a path that names a directory, [get_data_files] returns the list
    of the entries of [os.listdir], each joined with the directory path, in
    the order of the listing: the i-th path is the join of the i-th entry.
    For a directory with exactly the entries a, b, c the result is exactly
    the three joined paths, and a joined path reads [d/name] when [d] is not
    empty and has no trailing separator. *)
Theorem get_data_files_directory (fs : FileSystem) (d : string) :
  os_path_isdir fs d = true →
  ∃ names paths,
    os_listdir fs d = Ok names ∧
    get_data_files fs d = Ok (PathList paths) ∧
    paths = os_path_join d <$> names ∧
    length paths = length names ∧
    (∀ (i : nat) name, names !! i = Some name →
       paths !! i = Some (os_path_join d name)) ∧
    (∀ p, p ∈ paths ↔ ∃ name, name ∈ names ∧ p = os_path_join d name) ∧
    (∀ a b c, names = [a; b; c] →
       paths = [os_path_join d a; os_path_join d b; os_path_join d c]) ∧
    (d ≠ "" → endswith_sep d = false →
     ∀ name, name ∈ names → startswith_sep name = false →
       os_path_join d name = d +:+ "/" +:+ name).
Proof.
  intros Hdir. destruct (isdir_listdir fs d Hdir) as [names Hd].
  destruct (get_data_files_dir fs d names Hd) as [Hls Hget].
  exists names, (os_path_join d <$> names).
  repeat split; try done.
  - by rewrite length_fmap.
  - intros i name Hi. by rewrite list_lookup_fmap, Hi.
  - intros Hp. apply list_elem_of_fmap in Hp as (name & -> & Hin). eauto.
  - intros (name & Hin & ->). apply list_elem_of_fmap. eauto.
  - by intros a b c ->.
  - intros Hne Hend name _ Hstart. by apply os_path_join_plain.
Qed.

Lemma get_data_files_directory_witness :
  ∃ names paths,
    os_listdir demo_fs "data" = Ok names ∧
    get_data_files demo_fs "data" = Ok (PathList paths) ∧
    paths = os_path_join "data" <$> names ∧
    length paths = length names ∧
    (∀ (i : nat) name, names !! i = Some name →
       paths !! i = Some (os_path_join "data" name)) ∧
    (∀ p, p ∈ paths ↔ ∃ name, name ∈ names ∧ p = os_path_join "data" name) ∧
    (∀ a b c, names = [a; b; c] →
       paths = [os_path_join "data" a; os_path_join "data" b;
                os_path_join "data" c]) ∧
    ("data" ≠ "" → endswith_sep "data" = false →
     ∀ name, name ∈ names → startswith_sep name = false →
       os_path_join "data" name = "data" +:+ "/" +:+ name).
Proof. apply (get_data_files_directory demo_fs "data"). reflexivity. Defined.

(** C6. For a path that names a regular file, [get_data_files] returns the
    path itself, bare: the result is not a list. *)
Theorem get_data_files_file (fs : FileSystem) (p : string) :
  os_path_isfile fs p = true →
  get_data_files fs p = Ok (SinglePath p) ∧
  ∀ paths, get_data_files fs p ≠ Ok (PathList paths).
Proof.
  intros Hf. pose proof (isfile_not_isdir fs p Hf) as Hd.
  assert (get_data_files fs p = Ok (SinglePath p)) as ->.
  { unfold get_data_files. by rewrite Hd, Hf. }
  split; [done | discriminate].
Qed.

Lemma get_data_files_file_witness :
  get_data_files demo_fs "corpus.txt" = Ok (SinglePath "corpus.txt") ∧
  ∀ paths, get_data_files demo_fs "corpus.txt" ≠ Ok (PathList paths).
Proof. apply (get_data_files_file demo_fs "corpus.txt"). reflexivity. Defined.

(** C7. For a path that names neither a regular file nor a directory,
    [get_data_files] raises the [ValueError] of an invalid path; both
    constructors call it first, so each construction raises that same
    exception to its caller and no adapter is built. *)
Theorem invalid_path_raises_at_construction (fs : FileSystem) (p : string) :
  os_path_isdir fs p = false → os_path_isfile fs p = false →
  get_data_files fs p = Raise (ValueError "Please pass in a proper train path") ∧
  ∀ load_dataset tokenizer block_size out,
    RawTextDataset.__init__ fs load_dataset tokenizer p block_size out
      = (Raise (ValueError "Please pass in a proper train path"), out) ∧
    RegressionDataset.__init__ fs load_dataset tokenizer p block_size out
      = (Raise (ValueError "Please pass in a proper train path"),
         out ++ ["init dataset"]).
Proof.
  intros Hd Hf. pose proof (get_data_files_invalid fs p Hd Hf) as Hget.
  split; [done|]. intros load_dataset tokenizer block_size out.
  unfold RawTextDataset.__init__, RegressionDataset.__init__, bind, lift, print,
    modify.
  by rewrite Hget.
Qed.

Lemma invalid_path_raises_at_construction_witness :
  get_data_files demo_fs "missing"
    = Raise (ValueError "Please pass in a proper train path") ∧
  ∀ load_dataset tokenizer block_size out,
    RawTextDataset.__init__ demo_fs load_dataset tokenizer "missing" block_size out
      = (Raise (ValueError "Please pass in a proper train path"), out) ∧
    RegressionDataset.__init__ demo_fs load_dataset tokenizer "missing" block_size out
      = (Raise (ValueError "Please pass in a proper train path"),
         out ++ ["init dataset"]).
Proof.
  apply (invalid_path_raises_at_construction demo_fs "missing"); reflexivity.
Defined.

(** ** Running the monad *)

Lemma bind_ret_r {St A} (m : Py St A) (s : St) :
  bind m (fun a => ret a) s = m s.
Proof. unfold bind, ret. by destruct (m s) as [[a|e] s']. Qed.

(** Unfold the operations of the monad in the goal and compute. *)
Ltac run_py :=
  unfold bind, gets, lift, ret, raise, modify, print, ebind; simpl.

(** A comprehension raises as soon as one element does. *)
Lemma comprehension_raises {A B} (f : A → Exc B) (l : list A) (x : A) e :
  x ∈ l → f x = Raise e → ∃ e', comprehension f l = Raise e'.
Proof.
  intros Hin Hx. induction l as [|y l IH]; [by apply elem_of_nil in Hin|].
  simpl. unfold ebind. destruct (f y) as [b|e1] eqn:Hy; [|eauto].
  apply elem_of_cons in Hin as [->|Hin]; [congruence|].
  destruct (IH Hin) as [e' ->]. eauto.
Qed.

(** A comprehension over elements that all return is the plain map. *)
Lemma comprehension_returns {A B} (f : A → Exc B) (g : A → B) (l : list A) :
  (∀ x, x ∈ l → f x = Ok (g x)) → comprehension f l = Ok (g <$> l).
Proof.
  induction l as [|y l IH]; intros Hall; [done|].
  simpl. rewrite (Hall y) by apply list_elem_of_here. simpl.
  rewrite IH; [done|]. intros x Hx. apply Hall. by apply list_elem_of_further.
Qed.

(** ** What a successful construction establishes *)

Lemma RawTextDataset_init_inv fs load_dataset tokenizer path block_size out self out' :
  RawTextDataset.__init__ fs load_dataset tokenizer path block_size out
    = (Ok self, out') →
  ∃ data_files,
    get_data_files fs path = Ok data_files ∧
    load_dataset "text" data_files = Ok (RawTextDataset.dataset self) ∧
    RawTextDataset.tokenizer self = tokenizer ∧
    RawTextDataset.block_size self = block_size ∧
    RawTextDataset.len self = dataset_len (RawTextDataset.dataset self).
Proof.
  unfold RawTextDataset.__init__. run_py.
  destruct (get_data_files fs path) as [df|e] eqn:Hdf; [|discriminate].
  destruct (load_dataset "text" df) as [ds|e] eqn:Hds; [|discriminate].
  intros Hinit. injection Hinit as Hself _. subst self. by exists df.
Qed.

Lemma RegressionDataset_init_inv fs load_dataset tokenizer path block_size out self out' :
  RegressionDataset.__init__ fs load_dataset tokenizer path block_size out
    = (Ok self, out') →
  ∃ data_files,
    get_data_files fs path = Ok data_files ∧
    load_dataset "csv" data_files = Ok (RegressionDataset.dataset self) ∧
    RegressionDataset.tokenizer self = tokenizer ∧
    RegressionDataset.block_size self = block_size ∧
    features (RegressionDataset.dataset self)
      = RegressionDataset.smiles_column self :: RegressionDataset.label_columns self ∧
    RegressionDataset.num_labels self
      = Z.of_nat (length (RegressionDataset.label_columns self)) ∧
    RegressionDataset.len self = dataset_len (RegressionDataset.dataset self).
Proof.
  unfold RegressionDataset.__init__. run_py.
  destruct (get_data_files fs path) as [df|e] eqn:Hdf; [|discriminate].
  destruct (load_dataset "csv" df) as [ds|e] eqn:Hds; [|discriminate].
  destruct (features ds) as [|c cs] eqn:Hcols; simpl; [discriminate|].
  intros Hinit. injection Hinit as Hself _. subst self. simpl.
  exists df. by rewrite Hcols.
Qed.

(** C9. On a directory, [get_data_files] keeps every entry of the listing,
    whatever the joined path names (a regular file or not), and both
    constructors hand that whole list to the loader: the dataset of a
    constructed adapter is what the loader returned for it, and an exception
    of the loader on it is the exception of the construction. *)
Theorem directory_entries_not_filtered (fs : FileSystem) (d : string) :
  os_path_isdir fs d = true →
  ∃ names paths,
    os_listdir fs d = Ok names ∧
    get_data_files fs d = Ok (PathList paths) ∧
    length paths = length names ∧
    (∀ name is_file, name ∈ names →
       os_path_isfile fs (os_path_join d name) = is_file →
       os_path_join d name ∈ paths) ∧
    (∀ load_dataset tokenizer block_size out,
       (∀ self out',
          RawTextDataset.__init__ fs load_dataset tokenizer d block_size out
            = (Ok self, out') →
          load_dataset "text" (PathList paths) = Ok (RawTextDataset.dataset self)) ∧
       (∀ self out',
          RegressionDataset.__init__ fs load_dataset tokenizer d block_size out
            = (Ok self, out') →
          load_dataset "csv" (PathList paths)
            = Ok (RegressionDataset.dataset self)) ∧
       (∀ e, load_dataset "text" (PathList paths) = Raise e →
          RawTextDataset.__init__ fs load_dataset tokenizer d block_size out
            = (Raise e, out)) ∧
       (∀ e, load_dataset "csv" (PathList paths) = Raise e →
          RegressionDataset.__init__ fs load_dataset tokenizer d block_size out
            = (Raise e, out ++ ["init dataset"]))).
Proof.
  intros Hdir. destruct (isdir_listdir fs d Hdir) as [names Hd].
  destruct (get_data_files_dir fs d names Hd) as [Hls Hget].
  exists names, (os_path_join d <$> names).
  split; [done|]. split; [done|]. split; [by rewrite length_fmap|].
  split.
  { intros name is_file Hin _. apply list_elem_of_fmap. eauto. }
  intros load_dataset tokenizer block_size out. repeat split.
  - intros self out' Hinit.
    apply RawTextDataset_init_inv in Hinit as (df & Hdf & Hload & _).
    rewrite Hget in Hdf. by injection Hdf as <-.
  - intros self out' Hinit.
    apply RegressionDataset_init_inv in Hinit as (df & Hdf & Hload & _).
    rewrite Hget in Hdf. by injection Hdf as <-.
  - intros e He. unfold RawTextDataset.__init__. run_py. by rewrite Hget, He.
  - intros e He. unfold RegressionDataset.__init__. run_py. by rewrite Hget, He.
Qed.

Lemma directory_entries_not_filtered_witness :
  ∃ paths,
    get_data_files demo_fs "data" = Ok (PathList paths) ∧
    os_path_isfile demo_fs "data/old" = false ∧
    "data/old" ∈ paths.
Proof.
  destruct (directory_entries_not_filtered demo_fs "data" eq_refl)
    as (names & paths & Hls & Hget & _ & Hin & _).
  exists paths. split; [exact Hget|]. split; [reflexivity|].
  injection Hls as <-.
  apply (Hin "old" false); [|reflexivity].
  apply list_elem_of_further, list_elem_of_further, list_elem_of_here.
Defined.

(** ** [_clean_property] *)

(** On a missing cell or a number that converts to a double,
    [_clean_property] returns, and what it returns is [cleaned]. *)
Lemma clean_property_cleaned x :
  cleanable x = true → _clean_property x = Ok (cleaned x).
Proof.
  destruct x as [|b|z|f|s]; simpl; try done.
  - intros Hz. unfold math_isnan, math_isinf, on_double. by rewrite Hz.
  - intros _. unfold math_isnan, math_isinf, on_double. simpl.
    by destruct f.
Qed.

(** The value kept for a label is a number again. *)
Lemma cleaned_is_number x : cleanable x = true → is_number (cleaned x) = true.
Proof. destruct x as [|b|z|f|s]; simpl; try done. by destruct f. Qed.

(** C4, as stated, fails on an integer too large for a double: it is a
    number, neither NaN nor infinite, and [_clean_property] raises
    [OverflowError] on it instead of returning it. *)
Lemma clean_property_huge_int_raises :
  is_number (PInt (2 ^ 1024)) = true ∧
  is_nan_or_inf (PInt (2 ^ 1024)) = false ∧
  _clean_property (PInt (2 ^ 1024))
    = Raise (OverflowError "int too large to convert to float").
Proof. by vm_compute. Qed.

(** C4, amended. [_clean_property] returns 0 when its argument is [None], NaN
    or an infinity of either sign, and returns the argument unchanged for
    every other number that converts to a double: every [float], every
    [bool], and every [int] below the overflow bound of [float].  So 3.5
    stays 3.5 and 0 stays 0. *)
Theorem clean_property_spec :
  (∀ x, x = PNone ∨ is_nan_or_inf x = true → _clean_property x = Ok (PInt 0)) ∧
  (∀ x, is_number x = true → converts_to_float x = true →
        is_nan_or_inf x = false → _clean_property x = Ok x) ∧
  _clean_property (PFloat S754_nan) = Ok (PInt 0) ∧
  _clean_property (PFloat (S754_infinity false)) = Ok (PInt 0) ∧
  _clean_property (PFloat (S754_infinity true)) = Ok (PInt 0) ∧
  _clean_property (PFloat float_3_5) = Ok (PFloat float_3_5) ∧
  _clean_property (PInt 0) = Ok (PInt 0).
Proof.
  split; [|split]; [| |by vm_compute].
  - intros x [->|Hx]; [done|].
    destruct x as [|b|z|f|s]; try discriminate.
    rewrite clean_property_cleaned by done. simpl in *. by rewrite Hx.
  - intros x Hnum Hconv Hfin.
    rewrite clean_property_cleaned by (by destruct x).
    destruct x; try done. simpl in *. by rewrite Hfin.
Qed.

Lemma clean_property_spec_witness :
  _clean_property (PFloat (S754_infinity true)) = Ok (PInt 0) ∧
  _clean_property (PInt 7) = Ok (PInt 7).
Proof.
  destruct clean_property_spec as (Hzero & Hkeep & _).
  split; [apply Hzero; right; reflexivity | apply Hkeep; reflexivity].
Defined.

(** The argument check of [math.isnan] on a value that is not a number. *)
Lemma clean_property_type_error x :
  x ≠ PNone → is_number x = false →
  _clean_property x
    = Raise (TypeError ("must be real number, not " +:+ type_name x)).
Proof. by destruct x. Qed.

(** C10. [_clean_property] returns only on [None] and on numbers.  On a value
    that is neither (a string, say) the NaN check raises [TypeError]: the
    value is neither replaced by 0 nor returned.  A row that holds such a
    value in a label column makes [__getitem__] raise; the adapter is left
    as it was. *)
Theorem clean_property_rejects_non_numbers :
  (∀ x y, _clean_property x = Ok y → x = PNone ∨ is_number x = true) ∧
  (∀ x, x ≠ PNone → is_number x = false →
     ∃ msg, _clean_property x = Raise (TypeError msg)) ∧
  (∀ (self : RegressionDataset.t) i (line : Row) c x,
     dataset_getitem (RegressionDataset.dataset self) i = Ok line →
     c ∈ RegressionDataset.label_columns self →
     line !! c = Some x → x ≠ PNone → is_number x = false →
     ∃ e, RegressionDataset.__getitem__ i self = (Raise e, self)).
Proof.
  split; [|split].
  - intros x y Hx. destruct x; auto; discriminate.
  - intros x Hnone Hnum. rewrite clean_property_type_error by done. eauto.
  - intros self i line c x Hline Hc Hx Hnone Hnum.
    unfold RegressionDataset.__getitem__, RegressionDataset.preprocess.
    run_py. rewrite Hline.
    destruct (dict_getitem line (RegressionDataset.smiles_column self))
      as [text|e]; [|eauto].
    destruct (RegressionDataset.tokenizer self text _) as [enc|e]; [|eauto].
    destruct (comprehension_raises (RegressionDataset.clean_cell line)
                (RegressionDataset.label_columns self) c
                (TypeError ("must be real number, not " +:+ type_name x)) Hc)
      as [e' ->]; [|eauto].
    unfold RegressionDataset.clean_cell, dict_getitem. rewrite Hx. simpl.
    by apply clean_property_type_error.
Qed.

Lemma clean_property_rejects_non_numbers_witness :
  ∃ e, RegressionDataset.__getitem__ 1 (demo_label_adapter broken_table)
       = (Raise e, demo_label_adapter broken_table).
Proof.
  destruct clean_property_rejects_non_numbers as (_ & _ & Hrow).
  apply (Hrow (demo_label_adapter broken_table) 1 broken_row_b "y1" (PStr "n/a")).
  - reflexivity.
  - apply list_elem_of_here.
  - reflexivity.
  - discriminate.
  - reflexivity.
Defined.

(** The run behind it: the exception is the [TypeError] of the NaN check. *)
Example broken_row_type_error :
  fst (RegressionDataset.__getitem__ 1 (demo_label_adapter broken_table))
  = Raise (TypeError "must be real number, not str").
Proof. by vm_compute. Qed.

(** ** The character tokenizer honours the tokenizer contract *)

Lemma char_tokenizer_accepts o : accepts char_tokenizer o.
Proof.
  intros s. eexists. split; [reflexivity|].
  rewrite lookup_insert_eq. eauto.
Qed.

Lemma char_tokenizer_length o s enc k (ids : list Z) :
  char_tokenizer (PStr s) o = Ok enc → enc !! k = Some ids →
  add_special_tokens o = true → truncation o = true → 2 ≤ max_length o →
  (padding o = DoNotPad → Z.of_nat (length ids) ≤ max_length o) ∧
  (padding o = PadMaxLength → Z.of_nat (length ids) = max_length o).
Proof.
  unfold char_tokenizer. intros Henc Hk Hsp Htr Hmax.
  rewrite Hsp, Htr in Henc. injection Henc as <-.
  set (body := take _ _) in *.
  assert (Z.of_nat (length body) ≤ max_length o - 2) as Hbody.
  { subst body. rewrite length_take. lia. }
  apply lookup_insert_Some in Hk as [[_ <-]|[_ Hk]].
  - split; intros ->; simpl;
      rewrite ?length_app, ?length_replicate; simpl; lia.
  - apply lookup_singleton_Some in Hk as [_ <-].
    split; intros ->; simpl;
      rewrite ?length_app, ?length_replicate; simpl; lia.
Qed.

Lemma char_tokenizer_truncates bs :
  2 ≤ bs → truncates char_tokenizer (RawTextDataset.options bs).
Proof.
  intros Hbs _ text enc ids Henc Hids.
  destruct text as [| | | |s]; try discriminate.
  by apply (char_tokenizer_length _ s enc "input_ids" ids Henc Hids).
Qed.

Lemma char_tokenizer_pads bs :
  2 ≤ bs → pads char_tokenizer (RegressionDataset.options bs).
Proof.
  intros Hbs _ _ text enc k ids Henc Hids.
  destruct text as [| | | |s]; try discriminate.
  by apply (char_tokenizer_length _ s enc k ids Henc Hids).
Qed.

(** ** The lazy sequence *)

(** An index from 0 up to the length fetches the record at that position. *)
Lemma dataset_getitem_valid ds i :
  0 ≤ i < dataset_len ds →
  ∃ line, rows ds !! Z.to_nat i = Some line ∧ dataset_getitem ds i = Ok line.
Proof.
  intros Hi. unfold dataset_getitem.
  destruct (Z.ltb_spec i 0) as [?|_]; [lia|].
  destruct (Z.ltb_spec i 0) as [?|_]; [lia|].
  destruct (Z.leb_spec (dataset_len ds) i) as [?|_]; [lia|]. simpl.
  destruct (lookup_lt_is_Some_2 (rows ds) (Z.to_nat i)) as [line Hline].
  { unfold dataset_len in Hi. lia. }
  exists line. by rewrite Hline.
Qed.

(** ** [RawTextDataset.__getitem__] *)

(** C1. On a constructed text adapter, for every index from 0 up to its
    length, [__getitem__] fetches the record at that index, turns it into
    text with [str], calls the tokenizer on that text with special tokens
    added, truncation on, the block size as maximum length and no padding
    argument, and returns the token ids of the encoding as an array; the
    array has at most [block_size] entries.  The tokenizer is taken to
    honour its contract at these options ([accepts], [truncates]). *)
Theorem RawTextDataset_getitem_spec
    fs load_dataset str tokenizer path block_size out self out' n i :
  RawTextDataset.__init__ fs load_dataset tokenizer path block_size out
    = (Ok self, out') →
  accepts tokenizer (RawTextDataset.options block_size) →
  truncates tokenizer (RawTextDataset.options block_size) →
  RawTextDataset.__len__ self = (Ok n, self) →
  0 ≤ i < n →
  n = Z.of_nat (length (rows (RawTextDataset.dataset self))) ∧
  ∃ line enc ids example,
    rows (RawTextDataset.dataset self) !! Z.to_nat i = Some line ∧
    tokenizer (PStr (str line))
      {| add_special_tokens := true; truncation := true;
         padding := DoNotPad; max_length := block_size |} = Ok enc ∧
    enc !! "input_ids" = Some ids ∧
    RawTextDataset.__getitem__ str i self = (Ok example, self) ∧
    tensor_data example = PInt <$> ids ∧
    Z.of_nat (tensor_len example) ≤ block_size.
Proof.
  intros Hinit Hacc Htrunc Hlen Hi.
  apply RawTextDataset_init_inv in Hinit as (df & _ & _ & Htok & Hbs & Hn).
  unfold RawTextDataset.__len__, gets in Hlen. injection Hlen as <-.
  split; [exact Hn|].
  rewrite Hn in Hi.
  destruct (dataset_getitem_valid _ i Hi) as (line & Hline & Hget).
  destruct (Hacc (str line)) as (enc & Henc & [ids Hids]).
  exists line, enc, ids, (torch_tensor (int_list ids)).
  split; [done|]. split; [done|]. split; [done|]. split; [|split; [done|]].
  - unfold RawTextDataset.__getitem__, RawTextDataset.preprocess. run_py.
    rewrite Hget, Htok, Hbs, Henc. unfold dict_getitem. by rewrite Hids.
  - unfold tensor_len. simpl. rewrite length_fmap.
    by apply (Htrunc eq_refl (PStr (str line)) enc ids).
Qed.

Lemma RawTextDataset_getitem_spec_witness :
  3 = Z.of_nat (length (rows (RawTextDataset.dataset demo_text_adapter))) ∧
  ∃ line enc ids example,
    rows (RawTextDataset.dataset demo_text_adapter) !! Z.to_nat 2 = Some line ∧
    char_tokenizer (PStr (demo_str line))
      {| add_special_tokens := true; truncation := true;
         padding := DoNotPad; max_length := 8 |} = Ok enc ∧
    enc !! "input_ids" = Some ids ∧
    RawTextDataset.__getitem__ demo_str 2 demo_text_adapter
      = (Ok example, demo_text_adapter) ∧
    tensor_data example = PInt <$> ids ∧
    Z.of_nat (tensor_len example) ≤ 8.
Proof.
  apply (RawTextDataset_getitem_spec demo_fs (demo_loader text_corpus) demo_str
           char_tokenizer "corpus.txt" 8 [] demo_text_adapter
           ["Loaded Dataset"; "Number of lines: 3"; "Block size: 8"] 3 2).
  - reflexivity.
  - apply char_tokenizer_accepts.
  - apply char_tokenizer_truncates. lia.
  - reflexivity.
  - lia.
Defined.

(** The end-to-end run of the specification: three lines, block size 8. *)
Example text_corpus_first_item :
  fst (RawTextDataset.__len__ demo_text_adapter) = Ok 3 ∧
  fst (RawTextDataset.__getitem__ demo_str 0 demo_text_adapter)
  = Ok {| tensor_data := PInt <$> [0; 126; 42; 119; 104; 123; 119; 2] |}.
Proof. by vm_compute. Qed.

(** ** [RegressionDataset.__getitem__] *)

Section Regression.

Variable self : RegressionDataset.t.
Variable line : Row.

Lemma clean_cell_label_of c :
  labels_cleanable self line → c ∈ RegressionDataset.label_columns self →
  RegressionDataset.clean_cell line c = Ok (label_of line c).
Proof.
  intros Hrow Hc. destruct (Hrow c Hc) as (v & Hv & Hclean).
  unfold RegressionDataset.clean_cell, dict_getitem, label_of.
  rewrite Hv. simpl. by apply clean_property_cleaned.
Qed.

(** What [preprocess] returns on such a row when the tokenizer returns
    [enc] for its text cell: the fields of [enc] and the label, each as
    an array. *)
Lemma RegressionDataset_preprocess_returns text enc :
  line !! RegressionDataset.smiles_column self = Some text →
  RegressionDataset.tokenizer self text
    (RegressionDataset.options (RegressionDataset.block_size self)) = Ok enc →
  labels_cleanable self line →
  RegressionDataset.preprocess line self
  = (Ok (torch_tensor <$>
           <["label" := OTensor {| tensor_data :=
               label_of line <$> RegressionDataset.label_columns self |}]>
             (int_list <$> enc)), self).
Proof.
  intros Htext Henc Hrow. unfold RegressionDataset.preprocess. run_py.
  unfold dict_getitem. rewrite Htext, Henc.
  rewrite (comprehension_returns _ (label_of line)); [done|].
  intros c Hc. by apply clean_cell_label_of.
Qed.

End Regression.

Lemma RegressionDataset_getitem_returns (self : RegressionDataset.t) i line text enc :
  dataset_getitem (RegressionDataset.dataset self) i = Ok line →
  line !! RegressionDataset.smiles_column self = Some text →
  RegressionDataset.tokenizer self text
    (RegressionDataset.options (RegressionDataset.block_size self)) = Ok enc →
  labels_cleanable self line →
  RegressionDataset.__getitem__ i self
  = (Ok (torch_tensor <$>
           <["label" := OTensor {| tensor_data :=
               label_of line <$> RegressionDataset.label_columns self |}]>
             (int_list <$> enc)), self).
Proof.
  intros Hline Htext Henc Hrow. unfold RegressionDataset.__getitem__.
  unfold bind at 1. unfold gets at 1. unfold bind at 1. unfold lift at 1.
  rewrite Hline. rewrite bind_ret_r.
  by apply RegressionDataset_preprocess_returns with text.
Qed.

(** C2. On a constructed label adapter, whose label columns are the columns
    of the schema after the first, [__getitem__] at a valid index returns a
    mapping with a [label] field; its entries are, in column order, what
    [_clean_property] returns on the cell of each label column of the row,
    so there are as many as label columns ([num_labels]).  The row is taken
    to have a text cell that the tokenizer encodes and label cells that are
    missing or numbers. *)
Theorem RegressionDataset_getitem_label
    fs load_dataset tokenizer path block_size out self out' n i line text enc :
  RegressionDataset.__init__ fs load_dataset tokenizer path block_size out
    = (Ok self, out') →
  RegressionDataset.__len__ self = (Ok n, self) →
  0 ≤ i < n →
  rows (RegressionDataset.dataset self) !! Z.to_nat i = Some line →
  line !! RegressionDataset.smiles_column self = Some text →
  tokenizer text (RegressionDataset.options block_size) = Ok enc →
  labels_cleanable self line →
  features (RegressionDataset.dataset self)
    = RegressionDataset.smiles_column self :: RegressionDataset.label_columns self ∧
  ∃ example label,
    RegressionDataset.__getitem__ i self = (Ok example, self) ∧
    example !! "label" = Some label ∧
    Forall2 (fun c y => ∃ v, line !! c = Some v ∧ _clean_property v = Ok y)
      (RegressionDataset.label_columns self) (tensor_data label) ∧
    tensor_len label = length (RegressionDataset.label_columns self) ∧
    Z.of_nat (tensor_len label) = RegressionDataset.num_labels self.
Proof.
  intros Hinit Hlen Hi Hline Htext Henc Hrow.
  apply RegressionDataset_init_inv in Hinit
    as (df & _ & _ & Htok & Hbs & Hcols & Hnum & Hn).
  unfold RegressionDataset.__len__, gets in Hlen. injection Hlen as <-.
  split; [exact Hcols|].
  rewrite Hn in Hi.
  destruct (dataset_getitem_valid _ i Hi) as (line' & Hline' & Hget).
  assert (line' = line) as -> by congruence.
  eexists. exists {| tensor_data :=
    label_of line <$> RegressionDataset.label_columns self |}.
  split; [|split; [|split; [|split]]].
  - apply RegressionDataset_getitem_returns with text; try done.
    rewrite Htok, Hbs. exact Henc.
  - by rewrite lookup_fmap, lookup_insert_eq.
  - simpl. apply Forall2_fmap_r, Forall_Forall2_diag, Forall_forall.
    intros c Hc. destruct (Hrow c Hc) as (v & Hv & Hclean).
    exists v. split; [done|]. unfold label_of. rewrite Hv.
    by apply clean_property_cleaned.
  - unfold tensor_len. simpl. by rewrite length_fmap.
  - unfold tensor_len. simpl. by rewrite length_fmap, Hnum.
Qed.

(** C3. With a tokenizer that pads to the maximum length ([pads]), every
    field of the mapping that [__getitem__] returns, other than [label], is
    an array of exactly [block_size] entries, and every field of the
    tokenizer's encoding is such a field. *)
Theorem RegressionDataset_getitem_fixed_length
    fs load_dataset tokenizer path block_size out self out' n i line text enc :
  RegressionDataset.__init__ fs load_dataset tokenizer path block_size out
    = (Ok self, out') →
  pads tokenizer (RegressionDataset.options block_size) →
  RegressionDataset.__len__ self = (Ok n, self) →
  0 ≤ i < n →
  rows (RegressionDataset.dataset self) !! Z.to_nat i = Some line →
  line !! RegressionDataset.smiles_column self = Some text →
  tokenizer text
    {| add_special_tokens := true; truncation := true;
       padding := PadMaxLength; max_length := block_size |} = Ok enc →
  labels_cleanable self line →
  ∃ example,
    RegressionDataset.__getitem__ i self = (Ok example, self) ∧
    (∀ k field, k ≠ "label" → example !! k = Some field →
       Z.of_nat (tensor_len field) = block_size) ∧
    (∀ k ids, k ≠ "label" → enc !! k = Some ids →
       example !! k = Some {| tensor_data := PInt <$> ids |}).
Proof.
  intros Hinit Hpads Hlen Hi Hline Htext Henc Hrow.
  apply RegressionDataset_init_inv in Hinit
    as (df & _ & _ & Htok & Hbs & _ & _ & Hn).
  unfold RegressionDataset.__len__, gets in Hlen. injection Hlen as <-.
  rewrite Hn in Hi.
  destruct (dataset_getitem_valid _ i Hi) as (line' & Hline' & Hget).
  assert (line' = line) as -> by congruence.
  eexists. split; [|split].
  - apply RegressionDataset_getitem_returns with text; try done.
    rewrite Htok, Hbs. exact Henc.
  - intros k field Hk Hfield.
    rewrite lookup_fmap, lookup_insert_ne, lookup_fmap in Hfield by done.
    destruct (enc !! k) as [ids|] eqn:Hids; [|discriminate].
    injection Hfield as <-. unfold tensor_len. simpl. rewrite length_fmap.
    by apply (Hpads eq_refl eq_refl text enc k ids).
  - intros k ids Hk Hids.
    by rewrite lookup_fmap, lookup_insert_ne, lookup_fmap, Hids.
Qed.

Lemma label_table_cleanable (line : Row) :
  line ∈ rows label_table → labels_cleanable (demo_label_adapter label_table) line.
Proof.
  intros Hline c Hc. simpl in Hc.
  apply elem_of_cons in Hline as [->|Hline];
    [|apply elem_of_cons in Hline as [->|Hline];
      [|by apply elem_of_nil in Hline]];
    (apply elem_of_cons in Hc as [->|Hc];
      [|apply elem_of_cons in Hc as [->|Hc]; [|by apply elem_of_nil in Hc]]);
    eexists; split; reflexivity.
Qed.

Lemma RegressionDataset_getitem_label_witness :
  features label_table = ["text"; "y1"; "y2"] ∧
  ∃ example label,
    RegressionDataset.__getitem__ 0 (demo_label_adapter label_table)
      = (Ok example, demo_label_adapter label_table) ∧
    example !! "label" = Some label ∧
    Forall2 (fun c y => ∃ v, label_row_a !! c = Some v ∧ _clean_property v = Ok y)
      ["y1"; "y2"] (tensor_data label) ∧
    tensor_len label = 2%nat ∧
    Z.of_nat (tensor_len label) = 2.
Proof.
  eapply (RegressionDataset_getitem_label demo_fs (demo_loader label_table)
            char_tokenizer "corpus.txt" 8 [] (demo_label_adapter label_table)
            ["init dataset"; "Loaded Dataset"; "Number of lines: 2";
             "Block size: 8"] 2 0 label_row_a (PStr "a")).
  - reflexivity.
  - reflexivity.
  - lia.
  - reflexivity.
  - reflexivity.
  - reflexivity.
  - apply label_table_cleanable, list_elem_of_here.
Defined.

Lemma RegressionDataset_getitem_fixed_length_witness :
  ∃ example,
    RegressionDataset.__getitem__ 1 (demo_label_adapter label_table)
      = (Ok example, demo_label_adapter label_table) ∧
    (∀ k field, k ≠ "label" → example !! k = Some field →
       Z.of_nat (tensor_len field) = 8) ∧
    example !! "input_ids"
      = Some {| tensor_data := PInt <$> [0; 101; 2; 1; 1; 1; 1; 1] |}.
Proof.
  edestruct (RegressionDataset_getitem_fixed_length demo_fs
               (demo_loader label_table) char_tokenizer "corpus.txt" 8 []
               (demo_label_adapter label_table)
               ["init dataset"; "Loaded Dataset"; "Number of lines: 2";
                "Block size: 8"] 2 1 label_row_b (PStr "b"))
    as (example & Hget & Hlen & Hfields).
  - reflexivity.
  - apply char_tokenizer_pads. lia.
  - reflexivity.
  - lia.
  - reflexivity.
  - reflexivity.
  - reflexivity.
  - apply label_table_cleanable, list_elem_of_further, list_elem_of_here.
  - exists example. split; [exact Hget|]. split; [exact Hlen|].
    apply Hfields; [discriminate|]. reflexivity.
Defined.

(** The end-to-end run of the specification: the table with header
    [text,y1,y2] and rows [("a", 1.0, nan)] and [("b", 2.0, 3.0)]. *)
Example label_table_labels :
  fst (RegressionDataset.__len__ (demo_label_adapter label_table)) = Ok 2 ∧
  RegressionDataset.num_labels (demo_label_adapter label_table) = 2 ∧
  (example ← fst_ok (RegressionDataset.__getitem__ 0 (demo_label_adapter label_table));
   example !! "label")
  = Some {| tensor_data := [PFloat float_1_0; PInt 0] |} ∧
  (example ← fst_ok (RegressionDataset.__getitem__ 1 (demo_label_adapter label_table));
   example !! "label")
  = Some {| tensor_data := [PFloat float_2_0; PFloat float_3_0] |}.
Proof. by vm_compute. Qed.

(** ** Reads leave the adapter as it was *)

Lemma RawTextDataset_getitem_state str i (self : RawTextDataset.t) :
  snd (RawTextDataset.__getitem__ str i self) = self.
Proof.
  unfold RawTextDataset.__getitem__, RawTextDataset.preprocess. run_py.
  by repeat case_match; simplify_eq.
Qed.

Lemma RegressionDataset_getitem_state i (self : RegressionDataset.t) :
  snd (RegressionDataset.__getitem__ i self) = self.
Proof.
  unfold RegressionDataset.__getitem__, RegressionDataset.preprocess. run_py.
  by repeat case_match; simplify_eq.
Qed.

(** C8. [__getitem__] of either adapter is a read: the adapter after the call
    (tokenizer, dataset, cached length, columns, block size) is the adapter
    before it, whether the call returns or raises.  So a call made after
    another call, at the same or any other index, returns what it returns
    on the adapter as constructed: two calls at one index agree.  [__len__]
    is a read too. *)
Theorem getitem_is_a_pure_read str
    (text_adapter : RawTextDataset.t) (label_adapter : RegressionDataset.t) i j :
  snd (RawTextDataset.__getitem__ str i text_adapter) = text_adapter ∧
  RawTextDataset.__getitem__ str i
    (snd (RawTextDataset.__getitem__ str i text_adapter))
    = RawTextDataset.__getitem__ str i text_adapter ∧
  RawTextDataset.__getitem__ str i
    (snd (RawTextDataset.__getitem__ str j text_adapter))
    = RawTextDataset.__getitem__ str i text_adapter ∧
  snd (RawTextDataset.__len__ text_adapter) = text_adapter ∧
  snd (RegressionDataset.__getitem__ i label_adapter) = label_adapter ∧
  RegressionDataset.__getitem__ i
    (snd (RegressionDataset.__getitem__ i label_adapter))
    = RegressionDataset.__getitem__ i label_adapter ∧
  RegressionDataset.__getitem__ i
    (snd (RegressionDataset.__getitem__ j label_adapter))
    = RegressionDataset.__getitem__ i label_adapter ∧
  snd (RegressionDataset.__len__ label_adapter) = label_adapter.
Proof.
  rewrite !RawTextDataset_getitem_state, !RegressionDataset_getitem_state.
  by repeat split.
Qed.

(** * Further properties of the code *)

(** ** Comprehensions *)


(** The first element that raises ends the comprehension with its
    exception: the elements after it are not evaluated. *)
Lemma comprehension_first_failure {A B} (f : A → Exc B) pre x post e :
  (∀ x', x' ∈ pre → ∃ y, f x' = Ok y) → f x = Raise e →
  comprehension f (pre ++ x :: post) = Raise e.
Proof.
  intros Hpre Hx. induction pre as [|x' pre IH]; simpl.
  - by rewrite Hx.
  - destruct (Hpre x') as [y ->]; [apply list_elem_of_here|]. simpl.
    rewrite IH; [done|]. intros x'' Hin. apply Hpre.
    by apply list_elem_of_further.
Qed.

(** ** The two [__getitem__] as one expression each *)

Lemma RawTextDataset_getitem_eq str i (self : RawTextDataset.t) :
  RawTextDataset.__getitem__ str i self
  = ((line <- dataset_getitem (RawTextDataset.dataset self) i ;;
      batch_encoding <-
        RawTextDataset.tokenizer self (PStr (str line))
          (RawTextDataset.options (RawTextDataset.block_size self)) ;;
      input_ids <- dict_getitem batch_encoding "input_ids" ;;
      Ok (torch_tensor (int_list input_ids)))%exc, self).
Proof.
  unfold RawTextDataset.__getitem__, RawTextDataset.preprocess. run_py.
  by repeat case_match; simplify_eq.
Qed.

Lemma RegressionDataset_getitem_eq i (self : RegressionDataset.t) :
  RegressionDataset.__getitem__ i self
  = ((line <- dataset_getitem (RegressionDataset.dataset self) i ;;
      text <- dict_getitem line (RegressionDataset.smiles_column self) ;;
      batch_encoding <-
        RegressionDataset.tokenizer self text
          (RegressionDataset.options (RegressionDataset.block_size self)) ;;
      labels <- comprehension (RegressionDataset.clean_cell line)
                  (RegressionDataset.label_columns self) ;;
      Ok (torch_tensor <$>
            <["label" := OTensor (torch_tensor (OList labels))]>
              (int_list <$> batch_encoding)))%exc, self).
Proof.
  unfold RegressionDataset.__getitem__, RegressionDataset.preprocess. run_py.
  by repeat case_match; simplify_eq.
Qed.

(** ** [_clean_property]: where it returns and what it returns *)

Lemma int_fits_float_false z :
  int_fits_float z = false ↔ 2 ^ 1024 - 2 ^ 970 ≤ Z.abs z.
Proof. unfold int_fits_float. rewrite Z.ltb_ge. done. Qed.

Lemma clean_property_returns_cleanable x y :
  _clean_property x = Ok y → cleanable x = true.
Proof.
  destruct x as [|b|z|f|s]; try done. simpl.
  unfold math_isnan, math_isinf, on_double.
  by destruct (int_fits_float z).
Qed.

Lemma cleaned_finite x : cleanable x = true → finite_number (cleaned x) = true.
Proof. destruct x as [|b|z|f|s]; try done. by destruct f. Qed.

(** A cleaned value is returned as it is by a second cleaning. *)
Lemma clean_property_cleaned_fixed x :
  cleanable x = true → _clean_property (cleaned x) = Ok (cleaned x).
Proof.
  intros Hclean. destruct x as [|b|z|f|s]; try done; simpl in *.
  - unfold math_isnan, math_isinf, on_double. by rewrite Hclean.
  - by destruct f.
Qed.

(** X1. [_clean_property] returns exactly on [None], on a [bool], on a
    [float] and on an [int] of magnitude below [2^1024 - 2^970].  It raises
    [TypeError] exactly on a string and [OverflowError] exactly on an [int]
    at or above that magnitude, and it raises nothing else. *)
Theorem clean_property_domain (x : PyVal) :
  (cleanable x = true ↔ ∃ y, _clean_property x = Ok y) ∧
  ((∃ s, x = PStr s) ↔ ∃ msg, _clean_property x = Raise (TypeError msg)) ∧
  ((∃ z, x = PInt z ∧ 2 ^ 1024 - 2 ^ 970 ≤ Z.abs z)
     ↔ ∃ msg, _clean_property x = Raise (OverflowError msg)) ∧
  (∀ e, _clean_property x = Raise e →
     (∃ msg, e = TypeError msg) ∨ (∃ msg, e = OverflowError msg)).
Proof.
  destruct x as [|b|z|f|s].
  - repeat split; simpl; eauto; try (by intros [? ?]);
      try (by intros (? & ? & ?)); discriminate.
  - repeat split; simpl; eauto; try (by intros [? ?]);
      try (by intros (? & ? & ?)); discriminate.
  - simpl. unfold math_isnan, math_isinf, on_double.
    destruct (int_fits_float z) eqn:Hz; simpl.
    + repeat split; eauto; try (by intros [? ?]); try discriminate.
      intros (z' & [= <-] & Hbig). apply int_fits_float_false in Hbig.
      congruence.
    + repeat split; eauto; try (by intros [? ?]); try discriminate.
      * intros _. exists z. split; [done|]. by apply int_fits_float_false.
      * intros e [= <-]. eauto.
  - assert (∃ y, _clean_property (PFloat f) = Ok y) as Hret.
    { exists (cleaned (PFloat f)). by apply clean_property_cleaned. }
    destruct Hret as [y Hy]. rewrite Hy.
    repeat split; eauto; try (by intros [? ?]);
      try (by intros (? & ? & ?)); discriminate.
  - repeat split; simpl; eauto; try (by intros [? ?]);
      try (by intros (? & ? & ?)); try discriminate.
    intros e [= <-]. eauto.
Qed.

Lemma clean_property_domain_witness :
  (∃ y, _clean_property (PBool true) = Ok y) ∧
  (∃ msg, _clean_property (PStr "n/a") = Raise (TypeError msg)) ∧
  (∃ msg, _clean_property (PInt (- 2 ^ 2000)) = Raise (OverflowError msg)).
Proof.
  split; [|split].
  - apply (clean_property_domain (PBool true)). reflexivity.
  - apply (clean_property_domain (PStr "n/a")). by exists "n/a".
  - apply (clean_property_domain (PInt (- 2 ^ 2000))).
    exists (- 2 ^ 2000). split; [reflexivity|]. by vm_compute.
Defined.

(** X2. Whatever [_clean_property] returns is its argument or 0, is a number
    that is neither NaN nor infinite, and is left unchanged by a second
    cleaning. *)
Theorem clean_property_result (x y : PyVal) :
  _clean_property x = Ok y →
  (y = x ∨ y = PInt 0) ∧
  finite_number y = true ∧
  _clean_property y = Ok y.
Proof.
  intros Hx. pose proof (clean_property_returns_cleanable x y Hx) as Hclean.
  rewrite clean_property_cleaned in Hx by done. injection Hx as <-.
  split; [|split].
  - destruct x as [|b|z|f|s]; simpl; auto. destruct (_ || _); auto.
  - by apply cleaned_finite.
  - apply clean_property_cleaned_fixed. exact Hclean.
Qed.

Lemma clean_property_result_witness :
  (PInt 0 = PFloat S754_nan ∨ PInt 0 = PInt 0) ∧
  finite_number (PInt 0) = true ∧
  _clean_property (PInt 0) = Ok (PInt 0).
Proof. apply (clean_property_result (PFloat S754_nan) (PInt 0)). reflexivity. Defined.

(** ** [RegressionDataset.__getitem__]: results and exceptions *)



(** X4. In [RegressionDataset.__getitem__], once the text is tokenized, the
    first label column in column order whose cell cannot be cleaned decides
    the outcome: the call raises the exception of that cell ([KeyError] of
    the column when the row has no such key, [TypeError] when the cell is a
    string), whatever the later columns hold. *)
Theorem RegressionDataset_getitem_first_bad_label
    (self : RegressionDataset.t) i (line : Row) text enc pre c post e :
  dataset_getitem (RegressionDataset.dataset self) i = Ok line →
  line !! RegressionDataset.smiles_column self = Some text →
  RegressionDataset.tokenizer self text
    (RegressionDataset.options (RegressionDataset.block_size self)) = Ok enc →
  RegressionDataset.label_columns self = pre ++ c :: post →
  (∀ c', c' ∈ pre → ∃ v, line !! c' = Some v ∧ cleanable v = true) →
  RegressionDataset.clean_cell line c = Raise e →
  RegressionDataset.__getitem__ i self = (Raise e, self) ∧
  (line !! c = None → e = KeyError c) ∧
  (∀ s, line !! c = Some (PStr s) →
        e = TypeError "must be real number, not str").
Proof.
  intros Hline Htext Henc Hcols Hpre Hc. split; [|split].
  - rewrite RegressionDataset_getitem_eq, Hline. simpl.
    unfold dict_getitem at 1. rewrite Htext. simpl. rewrite Henc. simpl.
    rewrite Hcols.
    rewrite (comprehension_first_failure _ pre c post e); [done| |done].
    intros c' Hc'. destruct (Hpre c' Hc') as (v & Hv & Hclean).
    exists (cleaned v). unfold RegressionDataset.clean_cell, dict_getitem.
    rewrite Hv. simpl. by apply clean_property_cleaned.
  - intros Hnone. unfold RegressionDataset.clean_cell, dict_getitem in Hc.
    rewrite Hnone in Hc. simpl in Hc. by injection Hc as <-.
  - intros s Hs. unfold RegressionDataset.clean_cell, dict_getitem in Hc.
    rewrite Hs in Hc. simpl in Hc. by injection Hc as <-.
Qed.

Lemma RegressionDataset_getitem_first_bad_label_witness :
  RegressionDataset.__getitem__ 1 (demo_label_adapter short_table)
    = (Raise (KeyError "y2"), demo_label_adapter short_table) ∧
  (short_row_b !! "y2" = None → KeyError "y2" = KeyError "y2") ∧
  (∀ s, short_row_b !! "y2" = Some (PStr s) →
        KeyError "y2" = TypeError "must be real number, not str").
Proof.
  eapply (RegressionDataset_getitem_first_bad_label
            (demo_label_adapter short_table) 1 short_row_b (PStr "b") _
            ["y1"] "y2" []).
  - reflexivity.
  - reflexivity.
  - reflexivity.
  - reflexivity.
  - intros c' Hc'. apply elem_of_cons in Hc' as [->|Hc'];
      [|by apply elem_of_nil in Hc'].
    eexists. split; reflexivity.
  - reflexivity.
Defined.

(** X5. In [RegressionDataset.__getitem__] the text comes first: a row
    without the text column raises [KeyError] of that column, and an
    exception of the tokenizer on the text cell is the exception of the
    call; in both cases the label cells are not looked at. *)
Theorem RegressionDataset_text_errors_first
    (self : RegressionDataset.t) i (line : Row) :
  dataset_getitem (RegressionDataset.dataset self) i = Ok line →
  (line !! RegressionDataset.smiles_column self = None →
   RegressionDataset.__getitem__ i self
     = (Raise (KeyError (RegressionDataset.smiles_column self)), self)) ∧
  (∀ text e,
     line !! RegressionDataset.smiles_column self = Some text →
     RegressionDataset.tokenizer self text
       (RegressionDataset.options (RegressionDataset.block_size self))
       = Raise e →
     RegressionDataset.__getitem__ i self = (Raise e, self)).
Proof.
  intros Hline. split.
  - intros Hnone. rewrite RegressionDataset_getitem_eq, Hline. simpl.
    unfold dict_getitem. by rewrite Hnone.
  - intros text e Htext Htok. rewrite RegressionDataset_getitem_eq, Hline.
    simpl. unfold dict_getitem. rewrite Htext. simpl. by rewrite Htok.
Qed.

Lemma RegressionDataset_text_errors_first_witness :
  RegressionDataset.__getitem__ 1 failing_label_adapter
  = (Raise (OtherError "RuntimeError" "tokenizer failed"), failing_label_adapter).
Proof.
  destruct (RegressionDataset_text_errors_first failing_label_adapter 1
              broken_row_b eq_refl) as [_ Htok].
  apply (Htok (PStr "b")); reflexivity.
Defined.

(** ** Index errors and the outcomes of [RawTextDataset.__getitem__] *)

Lemma dataset_getitem_beyond ds i :
  dataset_len ds ≤ i → ∃ msg, dataset_getitem ds i = Raise (IndexError msg).
Proof.
  intros Hi. unfold dataset_getitem.
  assert (0 ≤ dataset_len ds) by (unfold dataset_len; lia).
  destruct (Z.ltb_spec i 0) as [?|_]; [lia|].
  destruct (Z.ltb_spec i 0) as [?|_]; [lia|].
  destruct (Z.leb_spec (dataset_len ds) i) as [_|?]; [|lia]. simpl. eauto.
Qed.

(** X6. On an adapter built by either constructor, an index at or beyond
    [__len__()] makes [__getitem__] raise [IndexError]; the tokenizer is not
    reached (the outcome is the same for every tokenizer) and the adapter is
    unchanged. *)
Theorem getitem_beyond_length_raises fs load_dataset str tokenizer path block_size out i :
  (∀ self out' n,
     RawTextDataset.__init__ fs load_dataset tokenizer path block_size out
       = (Ok self, out') →
     RawTextDataset.__len__ self = (Ok n, self) → n ≤ i →
     ∃ msg, RawTextDataset.__getitem__ str i self = (Raise (IndexError msg), self)) ∧
  (∀ self out' n,
     RegressionDataset.__init__ fs load_dataset tokenizer path block_size out
       = (Ok self, out') →
     RegressionDataset.__len__ self = (Ok n, self) → n ≤ i →
     ∃ msg, RegressionDataset.__getitem__ i self = (Raise (IndexError msg), self)).
Proof.
  split; intros self out' n Hinit Hlen Hi.
  - apply RawTextDataset_init_inv in Hinit as (df & _ & _ & _ & _ & Hn).
    unfold RawTextDataset.__len__, gets in Hlen. injection Hlen as <-.
    rewrite Hn in Hi.
    destruct (dataset_getitem_beyond _ i Hi) as [msg Hget].
    exists msg. by rewrite RawTextDataset_getitem_eq, Hget.
  - apply RegressionDataset_init_inv in Hinit
      as (df & _ & _ & _ & _ & _ & _ & Hn).
    unfold RegressionDataset.__len__, gets in Hlen. injection Hlen as <-.
    rewrite Hn in Hi.
    destruct (dataset_getitem_beyond _ i Hi) as [msg Hget].
    exists msg. by rewrite RegressionDataset_getitem_eq, Hget.
Qed.

Lemma getitem_beyond_length_raises_witness :
  (∃ msg, RawTextDataset.__getitem__ demo_str 3 demo_text_adapter
          = (Raise (IndexError msg), demo_text_adapter)) ∧
  (∃ msg, RegressionDataset.__getitem__ 2 (demo_label_adapter label_table)
          = (Raise (IndexError msg), demo_label_adapter label_table)).
Proof.
  split.
  - destruct (getitem_beyond_length_raises demo_fs (demo_loader text_corpus)
                demo_str char_tokenizer "corpus.txt" 8 [] 3) as [Htext _].
    apply (Htext demo_text_adapter
             ["Loaded Dataset"; "Number of lines: 3"; "Block size: 8"] 3);
      [reflexivity | reflexivity | lia].
  - destruct (getitem_beyond_length_raises demo_fs (demo_loader label_table)
                demo_str char_tokenizer "corpus.txt" 8 [] 2) as [_ Hlabel].
    apply (Hlabel (demo_label_adapter label_table)
             ["init dataset"; "Loaded Dataset"; "Number of lines: 2";
              "Block size: 8"] 2);
      [reflexivity | reflexivity | lia].
Defined.

(** X7. Once the record is fetched, [RawTextDataset.__getitem__] has three
    outcomes: an exception of the tokenizer is raised as it is; an encoding
    without ["input_ids"] raises [KeyError] of that key; otherwise the array
    of the token ids is returned, and the other fields of the encoding do
    not show in the result. *)
Theorem RawTextDataset_getitem_outcomes str (self : RawTextDataset.t) i (line : Row) :
  dataset_getitem (RawTextDataset.dataset self) i = Ok line →
  (∀ e,
     RawTextDataset.tokenizer self (PStr (str line))
       (RawTextDataset.options (RawTextDataset.block_size self)) = Raise e →
     RawTextDataset.__getitem__ str i self = (Raise e, self)) ∧
  (∀ enc,
     RawTextDataset.tokenizer self (PStr (str line))
       (RawTextDataset.options (RawTextDataset.block_size self)) = Ok enc →
     enc !! "input_ids" = None →
     RawTextDataset.__getitem__ str i self = (Raise (KeyError "input_ids"), self)) ∧
  (∀ enc ids,
     RawTextDataset.tokenizer self (PStr (str line))
       (RawTextDataset.options (RawTextDataset.block_size self)) = Ok enc →
     enc !! "input_ids" = Some ids →
     RawTextDataset.__getitem__ str i self
       = (Ok {| tensor_data := PInt <$> ids |}, self)).
Proof.
  intros Hline. split; [|split].
  - intros e Htok. by rewrite RawTextDataset_getitem_eq, Hline; simpl; rewrite Htok.
  - intros enc Htok Hids. rewrite RawTextDataset_getitem_eq, Hline. simpl.
    rewrite Htok. simpl. unfold dict_getitem. by rewrite Hids.
  - intros enc ids Htok Hids.
    rewrite RawTextDataset_getitem_eq, Hline. simpl.
    rewrite Htok. simpl. unfold dict_getitem. by rewrite Hids.
Qed.

Lemma RawTextDataset_getitem_outcomes_witness :
  RawTextDataset.__getitem__ demo_str 0 mask_only_text_adapter
  = (Raise (KeyError "input_ids"), mask_only_text_adapter).
Proof.
  destruct (RawTextDataset_getitem_outcomes demo_str mask_only_text_adapter 0
              {["text" := PStr "hello"]} eq_refl) as (_ & Hkey & _).
  apply (Hkey {["attention_mask" := [1; 1]]}); reflexivity.
Defined.

(** ** The constructors *)







(** X11. Over a table that has the text column only, the constructed adapter
    has no label column and [num_labels] 0, and [__getitem__] returns a
    [label] array with no entry for every row whose text the tokenizer
    encodes: no cell but the text is read. *)
Theorem RegressionDataset_text_only_table
    fs load_dataset tokenizer path block_size out self out' c :
  RegressionDataset.__init__ fs load_dataset tokenizer path block_size out
    = (Ok self, out') →
  features (RegressionDataset.dataset self) = [c] →
  RegressionDataset.label_columns self = [] ∧
  RegressionDataset.num_labels self = 0 ∧
  ∀ i (line : Row) text enc,
    dataset_getitem (RegressionDataset.dataset self) i = Ok line →
    line !! c = Some text →
    tokenizer text (RegressionDataset.options block_size) = Ok enc →
    ∃ example,
      RegressionDataset.__getitem__ i self = (Ok example, self) ∧
      example !! "label" = Some {| tensor_data := [] |}.
Proof.
  intros Hinit Hcols.
  apply RegressionDataset_init_inv in Hinit
    as (df & _ & _ & Htok & Hbs & Hfeat & Hnum & _).
  rewrite Hcols in Hfeat. injection Hfeat as Hc Hlabels.
  split; [done|]. split; [by rewrite Hnum, <- Hlabels|].
  intros i line text enc Hline Htext Henc. eexists. split.
  - rewrite RegressionDataset_getitem_eq, Hline. simpl.
    unfold dict_getitem. rewrite <- Hc, Htext. simpl.
    rewrite Htok, Hbs, Henc. simpl. rewrite <- Hlabels. simpl. reflexivity.
  - by rewrite lookup_fmap, lookup_insert_eq.
Qed.

Lemma RegressionDataset_text_only_table_witness :
  RegressionDataset.label_columns text_only_adapter = [] ∧
  RegressionDataset.num_labels text_only_adapter = 0 ∧
  ∃ example,
    RegressionDataset.__getitem__ 0 text_only_adapter
      = (Ok example, text_only_adapter) ∧
    example !! "label" = Some {| tensor_data := [] |}.
Proof.
  destruct (RegressionDataset_text_only_table demo_fs
              (demo_loader text_only_table) char_tokenizer "corpus.txt" 8 []
              text_only_adapter
              ["init dataset"; "Loaded Dataset"; "Number of lines: 1";
               "Block size: 8"] "text" eq_refl eq_refl)
    as (Hcols & Hnum & Hget).
  split; [exact Hcols|]. split; [exact Hnum|].
  eapply (Hget 0 {["text" := PStr "a"]} (PStr "a")); reflexivity.
Defined.

(** ** The resolved paths *)

Lemma prefix_append (a b : string) : String.prefix a (a +:+ b) = true.
Proof.
  induction a as [|c a IH]; simpl; [by destruct b|].
  by destruct (Ascii.ascii_dec c c).
Qed.

Lemma append_assoc (a b c : string) : (a +:+ b) +:+ c = a +:+ (b +:+ c).
Proof.
  induction a as [|x a IH]; [done|].
  change (String x ((a +:+ b) +:+ c) = String x (a +:+ (b +:+ c))).
  by rewrite IH.
Qed.

(** A joined path is the directory, a separator when the directory needs
    one, and the entry name. *)
Lemma os_path_join_append d name :
  startswith_sep name = false →
  os_path_join d name
  = (if (String.eqb d "" || endswith_sep d)%bool then d else d +:+ "/") +:+ name.
Proof.
  intros Hname. unfold os_path_join. rewrite Hname.
  destruct (String.eqb d "" || endswith_sep d)%bool; [done|].
  by rewrite append_assoc.
Qed.

(** X12. The shape of what [get_data_files] returns tells what the path
    named: a list is returned only for a directory, and it is then the
    listing joined with the path; a bare path is returned only for a regular
    file, and it is the argument itself. *)
Theorem get_data_files_result_shape (fs : FileSystem) (p : string) :
  (∀ paths, get_data_files fs p = Ok (PathList paths) →
     os_path_isdir fs p = true ∧
     ∃ names, os_listdir fs p = Ok names ∧ paths = os_path_join p <$> names) ∧
  (∀ q, get_data_files fs p = Ok (SinglePath q) →
     q = p ∧ os_path_isfile fs p = true ∧ os_path_isdir fs p = false).
Proof.
  unfold get_data_files. split.
  - intros paths. destruct (os_path_isdir fs p) eqn:Hdir.
    + destruct (os_listdir fs p) as [names|e]; simpl; [|discriminate].
      intros [= <-]. eauto.
    + destruct (os_path_isfile fs p); discriminate.
  - intros q. destruct (os_path_isdir fs p) eqn:Hdir.
    + destruct (os_listdir fs p) as [names|e]; simpl; discriminate.
    + destruct (os_path_isfile fs p); [|discriminate]. by intros [= <-].
Qed.

Lemma get_data_files_result_shape_witness :
  os_path_isdir demo_fs "data" = true ∧
  ∃ names,
    os_listdir demo_fs "data" = Ok names ∧
    ["data/a.txt"; "data/b.txt"; "data/old"] = os_path_join "data" <$> names.
Proof.
  destruct (get_data_files_result_shape demo_fs "data") as [Hlist _].
  apply Hlist. reflexivity.
Defined.

(** X13. For a directory whose listing has no repeated name and no name
    that starts with a separator (as [os.listdir] gives them),
    [get_data_files] returns paths that are pairwise distinct and that all
    start with the directory path. *)
Theorem get_data_files_distinct_under_directory (fs : FileSystem) (d : string) names :
  os_path_isdir fs d = true →
  os_listdir fs d = Ok names →
  NoDup names →
  (∀ name, name ∈ names → startswith_sep name = false) →
  ∃ paths,
    get_data_files fs d = Ok (PathList paths) ∧
    NoDup paths ∧
    ∀ path, path ∈ paths → String.prefix d path = true.
Proof.
  intros Hdir Hls Hnodup Hnames.
  exists (os_path_join d <$> names). split; [|split].
  - unfold get_data_files. by rewrite Hdir, Hls.
  - apply NoDup_fmap_2_strong; [|done].
    intros a b Ha Hb. rewrite !os_path_join_append by auto.
    apply (inj (String.app _)).
  - intros path Hpath. apply list_elem_of_fmap in Hpath as (name & -> & Hin).
    rewrite os_path_join_append by auto.
    destruct (String.eqb d "" || endswith_sep d)%bool.
    + apply prefix_append.
    + rewrite append_assoc. apply prefix_append.
Qed.

Lemma get_data_files_distinct_under_directory_witness :
  ∃ paths,
    get_data_files demo_fs "data" = Ok (PathList paths) ∧
    NoDup paths ∧
    ∀ path, path ∈ paths → String.prefix "data" path = true.
Proof.
  apply (get_data_files_distinct_under_directory demo_fs "data"
           ["a.txt"; "b.txt"; "old"]).
  - reflexivity.
  - reflexivity.
  - apply NoDup_cons. split; [|apply NoDup_cons; split;
      [|apply NoDup_cons; split; [|apply NoDup_nil_2]]].
    + intros Hin. apply elem_of_cons in Hin as [?|Hin]; [discriminate|].
      apply elem_of_cons in Hin as [?|Hin]; [discriminate|].
      by apply elem_of_nil in Hin.
    + intros Hin. apply elem_of_cons in Hin as [?|Hin]; [discriminate|].
      by apply elem_of_nil in Hin.
    + intros Hin. by apply elem_of_nil in Hin.
  - intros name Hin.
    apply elem_of_cons in Hin as [->|Hin]; [reflexivity|].
    apply elem_of_cons in Hin as [->|Hin]; [reflexivity|].
    apply elem_of_cons in Hin as [->|Hin]; [reflexivity|].
    by apply elem_of_nil in Hin.
Defined.

(** ** What a returned example is made of *)

(** X14. Whenever [RegressionDataset.__getitem__] returns a mapping, a row was
    fetched, its text cell was encoded by the tokenizer and every label cell
    was cleaned; the mapping has exactly the field names of the encoding
    plus [label]; [label] is the array of the cleaned cells, also when the
    encoding has a field of that name; and every other field is the
    encoding's field as an array.  The adapter is unchanged. *)
Theorem RegressionDataset_getitem_fields
    (self self' : RegressionDataset.t) i (example : gmap string Tensor) :
  RegressionDataset.__getitem__ i self = (Ok example, self') →
  self' = self ∧
  ∃ (line : Row) text enc labels,
    dataset_getitem (RegressionDataset.dataset self) i = Ok line ∧
    line !! RegressionDataset.smiles_column self = Some text ∧
    RegressionDataset.tokenizer self text
      (RegressionDataset.options (RegressionDataset.block_size self)) = Ok enc ∧
    comprehension (RegressionDataset.clean_cell line)
      (RegressionDataset.label_columns self) = Ok labels ∧
    dom example = {["label"]} ∪ dom enc ∧
    example !! "label" = Some {| tensor_data := labels |} ∧
    ∀ k, k ≠ "label" →
      example !! k = (fun ids => {| tensor_data := PInt <$> ids |}) <$> enc !! k.
Proof.
  rewrite RegressionDataset_getitem_eq. unfold ebind.
  destruct (dataset_getitem _ i) as [line|e]; [|discriminate].
  unfold dict_getitem at 1.
  destruct (line !! RegressionDataset.smiles_column self) as [text|] eqn:Htext;
    [|discriminate].
  destruct (RegressionDataset.tokenizer self text _) as [enc|e] eqn:Henc;
    [|discriminate].
  destruct (comprehension _ _) as [labels|e] eqn:Hlabels; [|discriminate].
  intros Hret. injection Hret as <- <-. split; [done|].
  exists line, text, enc, labels. repeat split; try done.
  - by rewrite dom_fmap_L, dom_insert_L, dom_fmap_L.
  - by rewrite lookup_fmap, lookup_insert_eq.
  - intros k Hk. rewrite lookup_fmap, lookup_insert_ne, lookup_fmap by done.
    by destruct (enc !! k).
Qed.

Lemma RegressionDataset_getitem_fields_witness :
  ∃ example,
    RegressionDataset.__getitem__ 1 (demo_label_adapter label_table)
      = (Ok example, demo_label_adapter label_table) ∧
    example !! "label"
      = Some {| tensor_data := [PFloat float_2_0; PFloat float_3_0] |} ∧
    example !! "token_type_ids" = None.
Proof.
  eexists.
  destruct (RegressionDataset_getitem_fields (demo_label_adapter label_table)
              (demo_label_adapter label_table) 1 _ eq_refl)
    as (_ & line & text & enc & labels & Hline & Htext & Henc & Hlabels
        & _ & Hlabel & Hfields).
  split; [reflexivity|]. split.
  - rewrite Hlabel. injection Hline as <-. by injection Hlabels as <-.
  - rewrite (Hfields "token_type_ids") by discriminate.
    injection Hline as <-. injection Htext as <-. by injection Henc as <-.
Defined.

(** X15. With a tokenizer that honours truncation at the adapter's options,
    every array that [RawTextDataset.__getitem__] returns, at any index and
    on any adapter, holds integers only and has at most [block_size]
    entries; the adapter is unchanged. *)
Theorem RawTextDataset_getitem_bounded str (self self' : RawTextDataset.t) i example :
  truncates (RawTextDataset.tokenizer self)
    (RawTextDataset.options (RawTextDataset.block_size self)) →
  RawTextDataset.__getitem__ str i self = (Ok example, self') →
  self' = self ∧
  Z.of_nat (tensor_len example) ≤ RawTextDataset.block_size self ∧
  ∃ ids, tensor_data example = PInt <$> ids.
Proof.
  intros Htrunc. rewrite RawTextDataset_getitem_eq. unfold ebind.
  destruct (dataset_getitem _ i) as [line|e]; [|discriminate].
  destruct (RawTextDataset.tokenizer self _ _) as [enc|e] eqn:Henc;
    [|discriminate].
  unfold dict_getitem.
  destruct (enc !! "input_ids") as [ids|] eqn:Hids; [|discriminate].
  intros Hret. injection Hret as <- <-. split; [done|]. split; [|by exists ids].
  unfold tensor_len. simpl. rewrite length_fmap.
  by apply (Htrunc eq_refl _ enc ids Henc).
Qed.

Lemma RawTextDataset_getitem_bounded_witness :
  ∃ example,
    RawTextDataset.__getitem__ demo_str 2 demo_text_adapter
      = (Ok example, demo_text_adapter) ∧
    Z.of_nat (tensor_len example) ≤ 8.
Proof.
  eexists.
  destruct (RawTextDataset_getitem_bounded demo_str demo_text_adapter
              demo_text_adapter 2 _ (char_tokenizer_truncates 8 ltac:(lia))
              eq_refl)
    as (_ & Hlen & _).
  split; [reflexivity | exact Hlen].
Defined.
